(** * MindEase chat bot (src/main.py): a shallow embedding of the session,
    authentication, chat and persistence flow.

    The program is a set of Gradio callbacks ([signup], [login],
    [save_message], [load_history], [mistral_chat], [logout]).  Every external
    effect is an oracle carried in an explicit [World]:
    - [requests.post] pops the next scripted HTTP outcome ([http]); an empty
      script is a transport error;
    - [datetime.utcnow()] reads a clock that advances by one per call;
    - Firestore is two collections ([users], [chats]) plus the store's
      answers to the successive RPCs (each one succeeds or fails on its own);
    - every HTTP request and every store RPC is appended to [trace].
    Python exceptions are the [Raise] outcome of a small state/exception
    monad; [try ... except Exception] is [try_except]. *)

From Stdlib Require Import String Ascii ZArith List Bool Lia.
From Stdlib Require Import Sorted Permutation Mergesort Orders.
Import ListNotations.
Open Scope string_scope.
Open Scope Z_scope.
Set Warnings "-register-all".

(** ** Values *)

(** Timestamps returned by [datetime.utcnow()]. *)
Definition time := Z.

(** JSON values as returned by [Response.json()] (Python [None], [bool],
    [int], [str], [list], [dict]). *)
Inductive Json :=
| JNull
| JBool (b : bool)
| JNum (z : Z)
| JStr (s : string)
| JArr (xs : list Json)
| JObj (kvs : list (string * Json)).

(** Python exceptions raised along the paths of main.py. *)
Inductive exn :=
| ConnectionError                  (* requests transport failure *)
| HTTPError (status : Z)           (* Response.raise_for_status *)
| JSONDecodeError                  (* Response.json on a non-JSON body *)
| KeyError (k : string)
| IndexError
| TypeError (msg : string)
| NotFound                         (* Firestore update of a missing document *)
| StoreUnavailable.                (* Firestore RPC failure *)

Definition nl : string := String (ascii_of_nat 10) EmptyString.

Definition exn_str (e : exn) : string :=
  match e with
  | ConnectionError => "Connection error"
  | HTTPError _ => "HTTP error"
  | JSONDecodeError => "Expecting value"
  | KeyError k => "'" ++ k ++ "'"
  | IndexError => "list index out of range"
  | TypeError msg => msg
  | NotFound => "404 No document to update"
  | StoreUnavailable => "503 Service unavailable"
  end.

Inductive Result (A : Type) :=
| Ok (a : A)
| Raise (e : exn).
Arguments Ok {A} a.
Arguments Raise {A} e.

(** Subscription [v[k]]: a string key on a dict, an integer index on a list
    or a string; anything else is a [TypeError]. *)
Inductive Key := KStr (k : string) | KInt (n : nat).

Fixpoint assoc_get (k : string) (kvs : list (string * Json)) : option Json :=
  match kvs with
  | [] => None
  | (k', v) :: r => if String.eqb k k' then Some v else assoc_get k r
  end.

Definition py_getitem (v : Json) (k : Key) : Result Json :=
  match v, k with
  | JObj kvs, KStr s =>
      match assoc_get s kvs with Some x => Ok x | None => Raise (KeyError s) end
  | JObj _, KInt _ => Raise (KeyError "0")
  | JArr xs, KInt n =>
      match nth_error xs n with Some x => Ok x | None => Raise IndexError end
  | JStr s, KInt n =>
      match String.get n s with
      | Some c => Ok (JStr (String c EmptyString))
      | None => Raise IndexError
      end
  | _, _ => Raise (TypeError "object is not subscriptable")
  end.

(** The name of a value's Python type, as in [TypeError] messages. *)
Definition py_type (v : Json) : string :=
  match v with
  | JNull => "NoneType"
  | JBool _ => "bool"
  | JNum _ => "int"
  | JStr _ => "str"
  | JArr _ => "list"
  | JObj _ => "dict"
  end.

(** [str(v)] for the values stored as chat text (string escaping inside
    containers is not modelled). *)
Fixpoint digits_rev (fuel : nat) (n : Z) : string :=
  match fuel with
  | O => EmptyString
  | S f =>
      let d := String (ascii_of_nat (48 + Z.to_nat (n mod 10))) EmptyString in
      if n <? 10 then d else digits_rev f (n / 10) ++ d
  end.

Definition z_str (z : Z) : string :=
  if z <? 0 then "-" ++ digits_rev 64 (- z) else digits_rev 64 z.

Fixpoint join (sep : string) (xs : list string) : string :=
  match xs with
  | [] => EmptyString
  | [x] => x
  | x :: r => x ++ sep ++ join sep r
  end.

Fixpoint py_repr (v : Json) : string :=
  match v with
  | JNull => "None"
  | JBool b => if b then "True" else "False"
  | JNum z => z_str z
  | JStr s => "'" ++ s ++ "'"
  | JArr xs => "[" ++ join ", " (map py_repr xs) ++ "]"
  | JObj kvs =>
      "{" ++ join ", " (map (fun kv => "'" ++ fst kv ++ "': " ++ py_repr (snd kv)) kvs)
      ++ "}"
  end.

Definition py_str (v : Json) : string :=
  match v with JStr s => s | _ => py_repr v end.

(** ** The outside world *)

(** The three endpoints main.py posts to: [FB_SIGNUP], [FB_SIGNIN] and the
    Mistral chat-completions URL. *)
Inductive Url := FB_SIGNUP | FB_SIGNIN | MISTRAL_CHAT.

(** What one [requests.post] gives back: a transport failure or a response
    with a status code and a body ([None] when the body is not JSON). *)
Inductive HttpOutcome :=
| HConnErr
| HResp (status : Z) (body : option Json).

(** A Firestore document reference: [Named k] for [document(k)] with a
    string [k] (taken as one path element: the identity provider's uids hold
    no "/"), [Auto k] for [document(None)], where the client drew the random
    id [k]. *)
Inductive DocId := Named (id : string) | Auto (id : string).

Definition doc_key (d : DocId) : string :=
  match d with Named k => k | Auto k => k end.

(** The document of collection "users". *)
Record UserRec := mkUser {
  u_email : Json;
  created_at : time;
  last_login : option time }.

(** A document of "chats/{uid}/messages". *)
Record ChatMsg := mkMsg {
  role : string;
  text : Json;
  msg_time : time }.

Inductive Event :=
| EvPost (u : Url) (body : Json)
| EvSet (d : DocId)
| EvUpdate (d : DocId)
| EvAdd (d : DocId)
| EvQuery (d : DocId).

Record World := mkWorld {
  users : list (string * UserRec);     (* "users", keyed by uid *)
  chats : list (string * ChatMsg);     (* "chats/{uid}/messages", in insertion order *)
  store_sched : list bool;             (* answers to the next Firestore RPCs *)
  store_default : bool;                (* answer once [store_sched] is used up *)
  clock : time;                        (* next value of utcnow() *)
  http : list HttpOutcome;             (* scripted answers to requests.post *)
  trace : list Event }.                (* calls made to the outside *)

(** The Gradio session dict [{"logged_in", "uid", "email"}]; [uid] and
    [email] hold whatever the identity provider returned ([JNull] is
    Python's [None]). *)
Record Session := mkSession {
  logged_in : bool;
  uid : Json;
  email : Json }.

Definition session0 : Session := mkSession false JNull JNull.

(** A transcript entry (label, text) of the Gradio chat history. *)
Definition Entry := (string * Json)%type.

(** ** A state/exception monad *)

(** [L] is the state of the Python objects the callback mutates in place
    (the session dict for [login], the history list for [mistral_chat]). *)
Definition M (L A : Type) := World * L -> Result A * (World * L).

Definition ret {L A} (a : A) : M L A := fun st => (Ok a, st).
Definition raise {L A} (e : exn) : M L A := fun st => (Raise e, st).
Definition bind {L A B} (m : M L A) (f : A -> M L B) : M L B :=
  fun st => match m st with
            | (Ok a, st') => f a st'
            | (Raise e, st') => (Raise e, st')
            end.

Notation "x <- m ;; k" := (bind m (fun x => k))
  (at level 61, m at next level, right associativity).
Notation "m ;;; k" := (bind m (fun _ => k))
  (at level 61, right associativity).

Definition lift {L A} (r : Result A) : M L A :=
  match r with Ok a => ret a | Raise e => raise e end.

Definition try_except {L A} (body : M L A) (handler : exn -> M L A) : M L A :=
  fun st => match body st with
            | (Ok a, st') => (Ok a, st')
            | (Raise e, st') => handler e st'
            end.

Definition get_local {L} : M L L := fun '(w, l) => (Ok l, (w, l)).
Definition modify_local {L} (f : L -> L) : M L unit :=
  fun '(w, l) => (Ok tt, (w, f l)).
Definition modify_world {L} (f : World -> World) : M L unit :=
  fun '(w, l) => (Ok tt, (f w, l)).
Definition get_world {L} : M L World := fun '(w, l) => (Ok w, (w, l)).

Definition run {L A} (m : M L A) (w : World) (l : L) : Result A * World * L :=
  let '(r, (w', l')) := m (w, l) in (r, w', l').

Definition with_users (w : World) (u : list (string * UserRec)) : World :=
  let '(mkWorld _ cs sc df ck h tr) := w in mkWorld u cs sc df ck h tr.
Definition with_chats (w : World) (c : list (string * ChatMsg)) : World :=
  let '(mkWorld us _ sc df ck h tr) := w in mkWorld us c sc df ck h tr.
Definition with_sched (w : World) (sc : list bool) : World :=
  let '(mkWorld us cs _ df ck h tr) := w in mkWorld us cs sc df ck h tr.
Definition with_clock (w : World) (t : time) : World :=
  let '(mkWorld us cs sc df _ h tr) := w in mkWorld us cs sc df t h tr.
Definition with_http (w : World) (h : list HttpOutcome) : World :=
  let '(mkWorld us cs sc df ck _ tr) := w in mkWorld us cs sc df ck h tr.
Definition log_event (w : World) (ev : Event) : World :=
  let '(mkWorld us cs sc df ck h tr) := w in mkWorld us cs sc df ck h (tr ++ [ev]).

(** The store's answer to the [n]-th next RPC, and whether it answers every
    RPC. *)
Definition store_answer_at (w : World) (n : nat) : bool :=
  nth n (store_sched w) (store_default w).
Definition store_up (w : World) : bool :=
  forallb (fun b => b) (store_sched w) && store_default w.

(** The id [_auto_id()] draws for [document(None)]: 20 random characters,
    which name no existing document but with negligible chance.  The model
    makes this exact: it takes a string longer than every id in [ks]. *)
Fixpoint max_len (ks : list string) : nat :=
  match ks with
  | [] => O
  | k :: r => Nat.max (String.length k) (max_len r)
  end.

Fixpoint x_run (n : nat) : string :=
  match n with
  | O => EmptyString
  | S n' => String "x"%char (x_run n')
  end.

Definition auto_id (ks : list string) : string := x_run (S (max_len ks)).
Arguments auto_id : simpl never.

Definition fresh_id (w : World) : string :=
  auto_id (app (map fst (users w)) (map fst (chats w))).

(** ** Primitives *)

(** [requests.post(url, json=body)]. *)
Definition requests_post {L} (u : Url) (body : Json) : M L (Z * option Json) :=
  fun '(w, l) =>
    let w1 := log_event w (EvPost u body) in
    match http w1 with
    | [] => (Raise ConnectionError, (w1, l))
    | HConnErr :: rest => (Raise ConnectionError, (with_http w1 rest, l))
    | HResp s b :: rest => (Ok (s, b), (with_http w1 rest, l))
    end.

(** [Response.raise_for_status()]: only 4xx and 5xx statuses raise. *)
Definition raise_for_status {L} (res : Z * option Json) : M L unit :=
  let s := fst res in
  if (400 <=? s) && (s <? 600) then raise (HTTPError s) else ret tt.

(** [Response.json()]. *)
Definition res_json {L} (res : Z * option Json) : M L Json :=
  match snd res with Some j => ret j | None => raise JSONDecodeError end.

Definition getitem {L} (v : Json) (k : Key) : M L Json := lift (py_getitem v k).

(** [datetime.utcnow()]. *)
Definition utcnow {L} : M L time :=
  fun '(w, l) => (Ok (clock w), (with_clock w (clock w + 1), l)).

(** [db.collection(c).document(x)]: a string is an id, [None] a fresh random
    id; anything else makes ["/".join(path)] in the client's path helper
    raise a [TypeError]. *)
Definition document {L} (x : Json) : M L DocId :=
  match x with
  | JStr s => ret (Named s)
  | JNull => w <- get_world ;; ret (Auto (fresh_id w))
  | v => raise (TypeError ("sequence item 1: expected str instance, " ++ py_type v
                           ++ " found"))
  end.

Fixpoint user_get (k : string) (us : list (string * UserRec)) : option UserRec :=
  match us with
  | [] => None
  | (k', r) :: t => if String.eqb k k' then Some r else user_get k t
  end.

(** Firestore [set]: the document with id [k] becomes [r]. *)
Fixpoint user_put (k : string) (r : UserRec) (us : list (string * UserRec))
  : list (string * UserRec) :=
  match us with
  | [] => [(k, r)]
  | (k', r') :: t => if String.eqb k k' then (k, r) :: t else (k', r') :: user_put k r t
  end.

Definition msgs_of (k : string) (cs : list (string * ChatMsg)) : list ChatMsg :=
  map snd (filter (fun p => String.eqb (fst p) k) cs).
Arguments msgs_of : simpl never.

(** The store's answer to the next RPC. *)
Definition store_answer {L} : M L bool :=
  fun '(w, l) =>
    match store_sched w with
    | [] => (Ok (store_default w), (w, l))
    | b :: rest => (Ok b, (with_sched w rest, l))
    end.

(** One Firestore RPC: it is issued (and traced), then fails when the store
    does not answer it. *)
Definition store_rpc {L A} (ev : Event) (op : M L A) : M L A :=
  modify_world (fun w => log_event w ev) ;;;
  ok <- store_answer ;;
  if ok then op else raise StoreUnavailable.

(** [db.collection("users").document(d).set(r)]. *)
Definition users_set {L} (d : DocId) (r : UserRec) : M L unit :=
  store_rpc (EvSet d)
    (modify_world (fun w => with_users w (user_put (doc_key d) r (users w)))).

(** [db.collection("users").document(d).update({"last_login": t})]: a missing
    document is a [NotFound]. *)
Definition users_update_last_login {L} (d : DocId) (t : time) : M L unit :=
  store_rpc (EvUpdate d)
    (w <- get_world ;;
     match user_get (doc_key d) (users w) with
     | Some r =>
         modify_world (fun w =>
           with_users w (user_put (doc_key d) (mkUser (u_email r) (created_at r) (Some t))
                           (users w)))
     | None => raise NotFound
     end).

(** [db.collection("chats").document(d).collection("messages").add(m)]. *)
Definition messages_add {L} (d : DocId) (m : ChatMsg) : M L unit :=
  store_rpc (EvAdd d)
    (modify_world (fun w => with_chats w (app (chats w) [(doc_key d, m)]))).

(** [.order_by("time")]: the store returns the documents sorted by time;
    ties are kept in insertion order (a stable merge sort). *)
Module MsgTimeOrder <: TotalLeBool.
Definition t := ChatMsg.
Definition leb (a b : ChatMsg) : bool := msg_time a <=? msg_time b.
Definition leb_total (a b : ChatMsg) : leb a b = true \/ leb b a = true.
Proof. unfold leb; destruct (Z.leb_spec (msg_time a) (msg_time b)); lia. Defined.
End MsgTimeOrder.

Module MsgSort := Sort MsgTimeOrder.

(** [...collection("messages").order_by("time").stream()]. *)
Definition messages_ordered {L} (d : DocId) : M L (list ChatMsg) :=
  store_rpc (EvQuery d)
    (w <- get_world ;; ret (MsgSort.sort (msgs_of (doc_key d) (chats w)))).

(** ** The callbacks of main.py *)

Definition signup_ok_msg := "🎉 Signup successful! Please login.".
Definition signup_err_msg := "❌ Signup Error: Could not create account.".
Definition login_ok_msg := "✅ Login successful!".
Definition login_err_msg := "❌ Invalid email or password.".
Definition history_login_msg := "❌ Please login to view history.".
Definition chat_login_msg := "❌ Please login to chat.".
Definition logout_msg := "👋 Logged out successfully.".
Definition history_header := "### 🕒 Chat History" ++ nl ++ nl.

Definition auth_data (email password : string) : Json :=
  JObj [("email", JStr email); ("password", JStr password);
        ("returnSecureToken", JBool true)].

(** [signup(email, password)], lines 34-50. *)
Definition signup_m (email password : string) : M unit string :=
  try_except
    (res <- requests_post FB_SIGNUP (auth_data email password) ;;
     raise_for_status res ;;;
     user <- res_json res ;;
     lid <- getitem user (KStr "localId") ;;
     d <- document lid ;;
     now <- utcnow ;;
     users_set d (mkUser (JStr email) now None) ;;;
     ret signup_ok_msg)
    (fun _ => ret signup_err_msg).

Definition signup (email password : string) (w : World) : Result string * World :=
  let '(r, w', _) := run (signup_m email password) w tt in (r, w').

(** [login(email, password, session)], lines 54-73: the session dict is
    mutated in place and returned on both paths. *)
Definition login_m (email password : string) : M Session (string * Session) :=
  try_except
    (res <- requests_post FB_SIGNIN (auth_data email password) ;;
     raise_for_status res ;;;
     user <- res_json res ;;
     modify_local (fun '(mkSession _ u e) => mkSession true u e) ;;;
     lid <- getitem user (KStr "localId") ;;
     modify_local (fun '(mkSession li _ e) => mkSession li lid e) ;;;
     em <- getitem user (KStr "email") ;;
     modify_local (fun '(mkSession li u _) => mkSession li u em) ;;;
     lid' <- getitem user (KStr "localId") ;;
     d <- document lid' ;;
     now <- utcnow ;;
     users_update_last_login d now ;;;
     s <- get_local ;;
     ret (login_ok_msg, s))
    (fun _ => s <- get_local ;; ret (login_err_msg, s)).

Definition login (email password : string) (session : Session) (w : World)
  : Result (string * Session) * World :=
  let '(r, w', _) := run (login_m email password) w session in (r, w').

(** [save_message(uid, role, text)], lines 77-82. *)
Definition save_message {L} (u : Json) (r : string) (t : Json) : M L unit :=
  d <- document u ;;
  now <- utcnow ;;
  messages_add d (mkMsg r t now).

(** One line of the rendered history, line 97; [strftime] is
    [.strftime("%Y-%m-%d %H:%M:%S")]. *)
Definition render_msg (strftime : time -> string) (m : ChatMsg) : string :=
  "**[" ++ role m ++ "]** (" ++ strftime (msg_time m) ++ ") → " ++ py_str (text m)
  ++ nl ++ nl.

(** [load_history(session)], lines 86-99. *)
Definition load_history_m (strftime : time -> string) (session : Session)
  : M unit string :=
  if negb (logged_in session) then ret history_login_msg
  else
    d <- document (uid session) ;;
    docs <- messages_ordered d ;;
    ret (fold_left (fun acc m => acc ++ render_msg strftime m) docs history_header).

Definition load_history (strftime : time -> string) (session : Session) (w : World)
  : Result string * World :=
  let '(r, w', _) := run (load_history_m strftime session) w tt in (r, w').

Definition completion_request (message : string) : Json :=
  JObj [("model", JStr "mistral-small-latest");
        ("messages", JArr [JObj [("role", JStr "user"); ("content", JStr message)]])].

(** [mistral_chat(message, history, session)], lines 103-131: [history] is
    the list mutated in place. *)
Definition mistral_chat_m (message : string) (session : Session)
  : M (list Entry) (list Entry * list Entry) :=
  try_except
    (response <- requests_post MISTRAL_CHAT (completion_request message) ;;
     raise_for_status response ;;;
     j <- res_json response ;;
     c <- getitem j (KStr "choices") ;;
     c0 <- getitem c (KInt 0) ;;
     m <- getitem c0 (KStr "message") ;;
     reply <- getitem m (KStr "content") ;;
     modify_local (fun h => app h [("You: " ++ message, reply)]) ;;;
     save_message (uid session) "user" (JStr message) ;;;
     save_message (uid session) "bot" reply ;;;
     h <- get_local ;;
     ret (h, h))
    (fun e =>
       modify_local (fun h => app h [("System", JStr ("❌ Chat Error: " ++ exn_str e))]) ;;;
       h <- get_local ;;
       ret (h, h)).

Definition mistral_chat (message : string) (history : list Entry) (session : Session)
  (w : World) : Result (list Entry * list Entry) * World :=
  if negb (logged_in session) then
    (Ok (history, [("System", JStr chat_login_msg)]), w)
  else
    let '(r, w', _) := run (mistral_chat_m message session) w history in (r, w').

(** [logout(session)], lines 135-139: the message, the reset session, an
    empty chat list and an empty string. *)
Definition logout (session : Session) : string * Session * list Entry * string :=
  (logout_msg, mkSession false JNull JNull, [], "").

(** ** The Gradio app of [create_app], lines 157-210 *)

(** A [gr.State] holding the chat history: [mistral_chat] stores lists in it,
    while [logout]'s fourth result, the empty string [""], is also stored
    there. *)
Inductive HistVal := HList (l : list Entry) | HStr (s : string).

(** Lines 109-120 of [mistral_chat]: the completion request and the
    extraction of the reply, before the history is touched. *)
Definition completion_call (message : string) : M unit Json :=
  response <- requests_post MISTRAL_CHAT (completion_request message) ;;
  raise_for_status response ;;;
  j <- res_json response ;;
  c <- getitem j (KStr "choices") ;;
  c0 <- getitem c (KInt 0) ;;
  m <- getitem c0 (KStr "message") ;;
  getitem m (KStr "content").

(** [mistral_chat] called with a [str] as [history]: the gate returns as
    usual; past it, [history.append] raises [AttributeError] (in the [try]
    after a reply, or at once in the [except] branch), and the [except]
    branch's own [history.append] raises again, so the call ends with an
    exception ([None]) after the completion request was made. *)
Definition mistral_chat_str (message history : string) (session : Session) (w : World)
  : option (HistVal * HistVal) * World :=
  if negb (logged_in session) then
    (Some (HStr history, HList [("System", JStr chat_login_msg)]), w)
  else
    let '(_, w', _) := run (completion_call message) w tt in (None, w').

(** The components the callbacks read and write: the two [gr.State]s, the
    chatbot, the four Markdown outputs, and the outside world. *)
Record App := mkApp {
  a_session : Session;
  a_chat_history : HistVal;
  a_chatbot : HistVal;
  a_s_msg : string;
  a_l_msg : string;
  a_logout_msg : string;
  a_history_display : string;
  a_world : World }.

(** The app as [create_app] builds it (line 160-161). *)
Definition app0 (w : World) : App :=
  mkApp session0 (HList []) (HList []) "" "" "" "" w.

(** The buttons: "Create Account", "Login", "Send", "Logout" and
    "Load Chat History". *)
Inductive UiEvent :=
| ClickSignup (e p : string)
| ClickLogin (e p : string)
| ClickSend (m : string)
| ClickLogout
| ClickLoadHistory.

(** One click: the callback runs on the inputs of its [.click] wiring and
    its results are written to the listed outputs; a callback that raises
    writes no output (its effects on the world remain). *)
Definition app_step (strftime : time -> string) (a : App) (ev : UiEvent) : App :=
  let '(mkApp se ch cb sm lm om hd w) := a in
  match ev with
  | ClickSignup e p =>
      match signup e p w with
      | (Ok m, w') => mkApp se ch cb m lm om hd w'
      | (Raise _, w') => mkApp se ch cb sm lm om hd w'
      end
  | ClickLogin e p =>
      match login e p se w with
      | (Ok (m, se'), w') => mkApp se' ch cb sm m om hd w'
      | (Raise _, w') => mkApp se ch cb sm lm om hd w'
      end
  | ClickSend m =>
      match ch with
      | HList h =>
          match mistral_chat m h se w with
          | (Ok (o1, o2), w') => mkApp se (HList o2) (HList o1) sm lm om hd w'
          | (Raise _, w') => mkApp se ch cb sm lm om hd w'
          end
      | HStr h =>
          match mistral_chat_str m h se w with
          | (Some (o1, o2), w') => mkApp se o2 o1 sm lm om hd w'
          | (None, w') => mkApp se ch cb sm lm om hd w'
          end
      end
  | ClickLogout =>
      let '(m, se', o3, o4) := logout se in
      mkApp se' (HStr o4) (HList o3) sm lm m hd w
  | ClickLoadHistory =>
      match load_history strftime se w with
      | (Ok t, w') => mkApp se ch cb sm lm om t w'
      | (Raise _, w') => mkApp se ch cb sm lm om hd w'
      end
  end.

Definition app_run (strftime : time -> string) (a : App) (evs : list UiEvent) : App :=
  fold_left (app_step strftime) evs a.

(** ** Statement-level helpers *)

(** [response.json()["choices"][0]["message"]["content"]]. *)
Definition reply_of (j : Json) : Result Json :=
  match py_getitem j (KStr "choices") with
  | Ok c =>
      match py_getitem c (KInt 0) with
      | Ok c0 =>
          match py_getitem c0 (KStr "message") with
          | Ok m => py_getitem m (KStr "content")
          | Raise e => Raise e
          end
      | Raise e => Raise e
      end
  | Raise e => Raise e
  end.

(** Whether [raise_for_status] raises for a status. *)
Definition error_status (st : Z) : bool := (400 <=? st) && (st <? 600).

(** The messages stored under the session's uid. *)
Definition stored_msgs (u : Json) (w : World) : list ChatMsg :=
  match u with JStr k => msgs_of k (chats w) | _ => [] end.

(** Sample values used by the concrete runs below. *)
Definition provider_ok_body : Json :=
  JObj [("localId", JStr "u1"); ("email", JStr "a@x.com"); ("idToken", JStr "tok")].
Definition completion_body (r : string) : Json :=
  JObj [("choices", JArr [JObj [("index", JNum 0);
                                ("message", JObj [("role", JStr "assistant");
                                                  ("content", JStr r)])]])].
Definition alice : Session := mkSession true (JStr "u1") (JStr "a@x.com").
Definition world_with (up : bool) (us : list (string * UserRec)) (h : list HttpOutcome)
  : World := mkWorld us [] [] up 1000 h [].
Definition no_strftime (t : time) : string := z_str t.

(** ** Generic facts *)

Lemma str_app_nil_r (s : string) : s ++ EmptyString = s.
Proof. induction s as [|c s IH]; simpl; [reflexivity | now rewrite IH]. Qed.

Lemma str_app_assoc (a b c : string) : a ++ (b ++ c) = (a ++ b) ++ c.
Proof. induction a as [|x a IH]; simpl; [reflexivity | now rewrite IH]. Qed.

Lemma user_get_put_eq (k : string) (r : UserRec) (us : list (string * UserRec)) :
  user_get k (user_put k r us) = Some r.
Proof.
  induction us as [|[k' r'] us IH]; simpl.
  - now rewrite String.eqb_refl.
  - destruct (String.eqb k k') eqn:E; simpl.
    + now rewrite String.eqb_refl.
    + now rewrite E.
Qed.

Lemma user_get_put_neq (k k' : string) (r : UserRec) (us : list (string * UserRec)) :
  k' <> k -> user_get k' (user_put k r us) = user_get k' us.
Proof.
  intros Hne. induction us as [|[k0 r0] us IH]; simpl.
  - apply String.eqb_neq in Hne. now rewrite Hne.
  - destruct (String.eqb k k0) eqn:E; simpl.
    + apply String.eqb_eq in E. subst k0.
      apply String.eqb_neq in Hne. now rewrite Hne.
    + now rewrite IH.
Qed.

(** The rendering loop of [load_history] is the header followed by the
    rendered documents, in order. *)
Lemma fold_render_concat (g : ChatMsg -> string) (docs : list ChatMsg) (a : string) :
  fold_left (fun acc m => acc ++ g m) docs a = a ++ String.concat "" (map g docs).
Proof.
  revert a; induction docs as [|m docs IH]; intro a; simpl.
  - now rewrite str_app_nil_r.
  - rewrite IH, <- str_app_assoc. f_equal.
    destruct docs; simpl; [now rewrite str_app_nil_r | reflexivity].
Qed.

(** The id drawn for [document(None)] names no stored document. *)
Lemma x_run_length (n : nat) : String.length (x_run n) = n.
Proof. induction n as [|n IH]; simpl; congruence. Qed.

Lemma max_len_ge (ks : list string) (k : string) :
  In k ks -> (String.length k <= max_len ks)%nat.
Proof.
  induction ks as [|k' ks IH]; simpl; [tauto|].
  intros [<- | H]; [lia | specialize (IH H); lia].
Qed.

Lemma auto_id_fresh (ks : list string) (k : string) : In k ks -> k <> auto_id ks.
Proof.
  intros H E. apply max_len_ge in H. rewrite E in H.
  unfold auto_id in H. rewrite x_run_length in H. lia.
Qed.

Lemma user_get_in (k : string) (us : list (string * UserRec)) (r : UserRec) :
  user_get k us = Some r -> In k (map fst us).
Proof.
  induction us as [|[k' r'] us IH]; simpl; [discriminate|].
  destruct (String.eqb k k') eqn:E; intros H.
  - left. symmetry. now apply String.eqb_eq.
  - right. now apply IH.
Qed.

Lemma user_get_auto (us : list (string * UserRec)) (ks : list string) :
  user_get (auto_id (app (map fst us) ks)) us = None.
Proof.
  destruct (user_get _ us) as [r|] eqn:E; [|reflexivity].
  exfalso. apply user_get_in in E.
  apply (auto_id_fresh (app (map fst us) ks) (auto_id (app (map fst us) ks))); [|reflexivity].
  apply in_or_app. now left.
Qed.

Lemma msgs_of_notin (k : string) (cs : list (string * ChatMsg)) :
  ~ In k (map fst cs) -> msgs_of k cs = [].
Proof.
  unfold msgs_of. induction cs as [|[k' m] cs IH]; simpl; [reflexivity|].
  intros H. destruct (String.eqb k' k) eqn:E.
  - apply String.eqb_eq in E. tauto.
  - apply IH. tauto.
Qed.

Lemma msgs_of_auto (cs : list (string * ChatMsg)) (ks : list string) :
  msgs_of (auto_id (app ks (map fst cs))) cs = [].
Proof.
  apply msgs_of_notin. intros H.
  apply (auto_id_fresh (app ks (map fst cs)) (auto_id (app ks (map fst cs)))); [|reflexivity].
  apply in_or_app. now right.
Qed.

Lemma user_get_fresh (us : list (string * UserRec)) (cs : list (string * ChatMsg))
  (sc : list bool) (df : bool) (ck : time) (h : list HttpOutcome) (tr : list Event) :
  user_get (fresh_id (mkWorld us cs sc df ck h tr)) us = None.
Proof. apply user_get_auto. Qed.

Lemma msgs_of_fresh (us : list (string * UserRec)) (cs : list (string * ChatMsg))
  (sc : list bool) (df : bool) (ck : time) (h : list HttpOutcome) (tr : list Event) :
  msgs_of (fresh_id (mkWorld us cs sc df ck h tr)) cs = [].
Proof. apply msgs_of_auto. Qed.

(** [store_up w]: the store answers every RPC. *)
Lemma store_up_answers (w : World) (n : nat) :
  store_up w = true -> store_answer_at w n = true.
Proof.
  destruct w as [us cs sc df ck ht tr]. unfold store_up, store_answer_at; simpl.
  intros H. apply andb_prop in H as [Hs Hd].
  revert n; induction sc as [|b sc IH]; intros [|n]; simpl in *; auto;
    apply andb_prop in Hs as [Hb Hs]; auto.
Qed.

(** Case analysis on the store's answers met along a run. *)
Ltac store_split :=
  repeat (match goal with
          | |- context [match ?l with [] => _ | _ :: _ => _ end] => is_var l; destruct l
          | |- context [if ?b then _ else _] => is_var b; destruct b
          end; cbn).

(** From [store_up] on a concrete schedule: every answer met is [true]. *)
Ltac store_up_facts H :=
  cbn in H;
  repeat match goal with
         | H' : (_ && _) = true |- _ => apply andb_prop in H' as [? ?]
         end;
  subst.

(** ** Logged-out gate *)

(** C1: with [logged_in = false], [mistral_chat] and [load_history] leave the
    whole world untouched (no HTTP request, no store RPC: the trace, the store
    and the scripts are as before) and answer with their "Please login"
    messages. *)
Theorem logged_out_no_effects (strftime : time -> string) (message : string)
  (history : list Entry) (s : Session) (w : World) :
  logged_in s = false ->
  mistral_chat message history s w = (Ok (history, [("System", JStr chat_login_msg)]), w) /\
  load_history strftime s w = (Ok history_login_msg, w) /\
  String.index 0 "Please login" chat_login_msg <> None /\
  String.index 0 "Please login" history_login_msg <> None.
Proof.
  intros H. unfold mistral_chat, load_history, load_history_m, run.
  rewrite H. simpl. repeat split; discriminate.
Qed.

Lemma logged_out_no_effects_witness :
  logged_in session0 = false /\
  mistral_chat "Hello" [] session0 (world_with true [] [])
    = (Ok ([], [("System", JStr chat_login_msg)]), world_with true [] []).
Proof.
  split; [reflexivity|].
  apply (logged_out_no_effects no_strftime "Hello" [] session0 (world_with true [] [])).
  reflexivity.
Defined.

(** C3 (code bug): a logged-out send returns at once, with the world
    unchanged, but it does not append the system message to the transcript.
    Its first result (the chatbot's value in the app) is the given
    transcript, never that transcript extended by the system entry; its
    second (the stored chat history) is a new one-entry list, which equals
    the extended transcript only when the given one was empty. *)
Theorem logged_out_send_not_appended (message : string) (history : list Entry)
  (s : Session) (w : World) :
  logged_in s = false ->
  mistral_chat message history s w
    = (Ok (history, [("System", JStr "❌ Please login to chat.")]), w) /\
  history <> app history [("System", JStr "❌ Please login to chat.")] /\
  ([("System", JStr "❌ Please login to chat.")]
     = app history [("System", JStr "❌ Please login to chat.")] <-> history = []).
Proof.
  intros H. split; [unfold mistral_chat; now rewrite H|]. split.
  - intros E. apply (f_equal (@length Entry)) in E.
    rewrite length_app in E. simpl in E. lia.
  - split; [|intros ->; reflexivity].
    intros E. apply (f_equal (@length Entry)) in E.
    rewrite length_app in E. simpl in E.
    destruct history; [reflexivity | simpl in E; lia].
Qed.

Lemma logged_out_send_not_appended_witness :
  logged_in session0 = false /\
  mistral_chat "Hello" [("You: hi", JStr "hello")] session0 (world_with true [] [])
    = (Ok ([("You: hi", JStr "hello")], [("System", JStr "❌ Please login to chat.")]),
       world_with true [] []) /\
  [("You: hi", JStr "hello")]
    <> app [("You: hi", JStr "hello")] [("System", JStr "❌ Please login to chat.")] /\
  ([("System", JStr "❌ Please login to chat.")]
     = app [("You: hi", JStr "hello")] [("System", JStr "❌ Please login to chat.")]
   <-> [("You: hi", JStr "hello")] = []).
Proof.
  split; [reflexivity|].
  apply (logged_out_send_not_appended "Hello" [("You: hi", JStr "hello")] session0
           (world_with true [] [])).
  reflexivity.
Defined.

(** ** Logout *)

(** C8: whatever the session was, [logout] returns its message, the
    all-default logged-out session, an empty chat list and an empty
    string. *)
Theorem logout_resets (s : Session) :
  logout s = ("👋 Logged out successfully.", session0, [], "") /\
  session0 = mkSession false JNull JNull.
Proof. split; reflexivity. Qed.

(** ** Login failure after the session was written *)

(** C2: the provider accepts the credentials but the user document is
    missing (for instance because the store write of [signup] failed), so
    the [last_login] update raises [NotFound].  [login] reports
    "Invalid email or password." yet returns the session already switched to
    logged in with the provider's uid and email, not the prior logged-out
    session. *)
Theorem login_failure_leaks_session :
  fst (login "a@x.com" "pw123456" session0
         (world_with true [] [HResp 200 (Some provider_ok_body)]))
    = Ok (login_err_msg, mkSession true (JStr "u1") (JStr "a@x.com")) /\
  mkSession true (JStr "u1") (JStr "a@x.com") <> session0.
Proof. split; [reflexivity | discriminate]. Qed.

(** ** A chat turn *)

(** The run of a logged-in turn with string uid [u] whose completion call
    answers with a non-error status and a well-formed body: the pair entry
    is appended, then each write is kept or fails as the store answers. *)
Lemma chat_reply_run (message : string) (history : list Entry) (s : Session)
  (w : World) (u : string) (st : Z) (body r : Json) (rest : list HttpOutcome) :
  logged_in s = true -> uid s = JStr u ->
  http w = HResp st (Some body) :: rest -> error_status st = false ->
  reply_of body = Ok r ->
  exists w',
    let h := app history (("You: " ++ message, r) ::
               (if store_answer_at w 0 && store_answer_at w 1 then []
                else [("System", JStr ("❌ Chat Error: " ++ exn_str StoreUnavailable))])) in
    mistral_chat message history s w = (Ok (h, h), w') /\
    chats w' = app (chats w)
                 (app (if store_answer_at w 0
                       then [(u, mkMsg "user" (JStr message) (clock w))] else [])
                      (if store_answer_at w 0 && store_answer_at w 1
                       then [(u, mkMsg "bot" r (clock w + 1))] else [])) /\
    users w' = users w /\
    (store_answer_at w 0 && store_answer_at w 1 = true ->
     w' = mkWorld (users w)
            (app (chats w) [(u, mkMsg "user" (JStr message) (clock w));
                            (u, mkMsg "bot" r (clock w + 1))])
            (skipn 2 (store_sched w)) (store_default w) (clock w + 2) rest
            (app (trace w) [EvPost MISTRAL_CHAT (completion_request message);
                            EvAdd (Named u); EvAdd (Named u)])).
Proof.
  intros Hl Hu Hh Hst Hr.
  destruct w as [us cs sc df ck ht tr]; simpl in *; subst.
  unfold error_status in Hst.
  unfold reply_of in Hr.
  destruct (py_getitem body (KStr "choices")) as [c|] eqn:E1; [|discriminate].
  destruct (py_getitem c (KInt 0)) as [c0|] eqn:E2; [|discriminate].
  destruct (py_getitem c0 (KStr "message")) as [m|] eqn:E3; [|discriminate].
  unfold mistral_chat. rewrite Hl. simpl.
  unfold run, mistral_chat_m, try_except, bind, requests_post, raise_for_status,
    res_json, getitem, lift, modify_local, save_message, document, utcnow,
    messages_add, store_rpc, store_answer, modify_world, get_world, get_local, ret,
    raise, store_answer_at; cbn.
  rewrite Hst, E1, E2, E3, Hr. cbn.
  rewrite Hu. cbn.
  destruct sc as [|b1 [|b2 sc]]; cbn; store_split;
    (eexists; split; [rewrite <- ?app_assoc; reflexivity|]); rewrite <- ?app_assoc; cbn;
    (split; [rewrite ?app_nil_r; reflexivity | split; [reflexivity|]]);
    intros E; try discriminate E;
    unfold with_chats, with_clock, with_http, with_sched, log_event; cbn;
    rewrite <- ?app_assoc; cbn; f_equal; lia.
Qed.

(** The same run when the store answers every RPC. *)
Lemma chat_success_run (message : string) (history : list Entry) (s : Session)
  (w : World) (u : string) (st : Z) (body r : Json) (rest : list HttpOutcome) :
  logged_in s = true -> uid s = JStr u -> store_up w = true ->
  http w = HResp st (Some body) :: rest -> error_status st = false ->
  reply_of body = Ok r ->
  mistral_chat message history s w =
    (Ok (app history [("You: " ++ message, r)], app history [("You: " ++ message, r)]),
     mkWorld (users w)
       (app (chats w) [(u, mkMsg "user" (JStr message) (clock w));
                       (u, mkMsg "bot" r (clock w + 1))])
       (skipn 2 (store_sched w)) (store_default w) (clock w + 2) rest
       (app (trace w) [EvPost MISTRAL_CHAT (completion_request message);
                       EvAdd (Named u); EvAdd (Named u)])).
Proof.
  intros Hl Hu Hup Hh Hst Hr.
  destruct (chat_reply_run message history s w u st body r rest Hl Hu Hh Hst Hr)
    as [w' [E [_ [_ Hw]]]].
  rewrite (store_up_answers w 0 Hup), (store_up_answers w 1 Hup) in E, Hw.
  cbn in E. rewrite E, (Hw eq_refl). reflexivity.
Qed.

(** C4 (as stated, refuted): with the completion answering "Hi there" but
    the store down, the transcript gains two entries (the pair and an error
    entry) and no message is persisted. *)
Lemma chat_turn_store_down :
  let w := world_with false [] [HResp 200 (Some (completion_body "Hi there"))] in
  fst (mistral_chat "Hello" [] alice w)
    = Ok ([("You: Hello", JStr "Hi there");
           ("System", JStr ("❌ Chat Error: " ++ exn_str StoreUnavailable))],
          [("You: Hello", JStr "Hi there");
           ("System", JStr ("❌ Chat Error: " ++ exn_str StoreUnavailable))]) /\
  chats (snd (mistral_chat "Hello" [] alice w)) = [].
Proof. split; reflexivity. Qed.

(** C4 (amended): for a logged-in session with string uid [u], when the
    completion call answers with a status [raise_for_status] accepts and a
    body whose choices[0].message.content is [r], the transcript gains the
    entry ("You: " ++ message, r).  If the store accepts both writes, that is
    the only new entry and exactly two messages are added under [u], first
    (user, message) then (bot, r).  If a write fails, an error entry follows
    the pair: a failed first write persists nothing, a failed second write
    leaves the user message only.  The user records are untouched. *)
Theorem chat_turn_persists_pair (message : string) (history : list Entry)
  (s : Session) (w : World) (u : string) (st : Z) (body r : Json)
  (rest : list HttpOutcome) :
  logged_in s = true -> uid s = JStr u ->
  http w = HResp st (Some body) :: rest -> error_status st = false ->
  reply_of body = Ok r ->
  exists w',
    let h := app history (("You: " ++ message, r) ::
               (if store_answer_at w 0 && store_answer_at w 1 then []
                else [("System", JStr ("❌ Chat Error: " ++ exn_str StoreUnavailable))])) in
    mistral_chat message history s w = (Ok (h, h), w') /\
    chats w' = app (chats w)
                 (app (if store_answer_at w 0
                       then [(u, mkMsg "user" (JStr message) (clock w))] else [])
                      (if store_answer_at w 0 && store_answer_at w 1
                       then [(u, mkMsg "bot" r (clock w + 1))] else [])) /\
    users w' = users w.
Proof.
  intros Hl Hu Hh Hst Hr.
  destruct (chat_reply_run message history s w u st body r rest Hl Hu Hh Hst Hr)
    as [w' [E [Hc [Hus _]]]].
  exists w'. auto.
Qed.

(** The store accepts the user message and fails the bot message. *)
Definition half_down_world : World :=
  mkWorld [] [] [true; false] true 1000 [HResp 200 (Some (completion_body "Hi there"))] [].

Lemma chat_turn_persists_pair_witness :
  exists w',
    let h := app [] (("You: Hello", JStr "Hi there") ::
               (if store_answer_at half_down_world 0 && store_answer_at half_down_world 1
                then []
                else [("System", JStr ("❌ Chat Error: " ++ exn_str StoreUnavailable))])) in
    mistral_chat "Hello" [] alice half_down_world = (Ok (h, h), w') /\
    chats w' = app []
                 (app (if store_answer_at half_down_world 0
                       then [("u1", mkMsg "user" (JStr "Hello") 1000)] else [])
                      (if store_answer_at half_down_world 0 && store_answer_at half_down_world 1
                       then [("u1", mkMsg "bot" (JStr "Hi there") (1000 + 1))] else [])) /\
    users w' = [].
Proof.
  apply (chat_turn_persists_pair "Hello" [] alice half_down_world
           "u1" 200 (completion_body "Hi there") (JStr "Hi there") []);
    reflexivity.
Defined.

(** C10: on a successful turn the transcript shows "You: " ++ message while
    the persisted user message holds the raw [message]; the two texts always
    differ. *)
Theorem chat_prompt_label_differs (message : string) (history : list Entry)
  (s : Session) (w : World) (u : string) (st : Z) (body r : Json)
  (rest : list HttpOutcome) :
  logged_in s = true -> uid s = JStr u -> store_up w = true ->
  http w = HResp st (Some body) :: rest -> error_status st = false ->
  reply_of body = Ok r ->
  exists h w',
    mistral_chat message history s w = (Ok (h, h), w') /\
    last h ("", JNull) = ("You: " ++ message, r) /\
    In (u, mkMsg "user" (JStr message) (clock w)) (chats w') /\
    "You: " ++ message <> message.
Proof.
  intros Hl Hu Hup Hh Hst Hr.
  rewrite (chat_success_run message history s w u st body r rest Hl Hu Hup Hh Hst Hr).
  do 2 eexists. split; [reflexivity|]. simpl. split; [|split].
  - now rewrite last_last.
  - apply in_or_app. right. now left.
  - intros E. apply (f_equal String.length) in E. simpl in E. lia.
Qed.

Lemma chat_prompt_label_differs_witness :
  exists h w',
    mistral_chat "Hello" [] alice
      (world_with true [] [HResp 200 (Some (completion_body "Hi there"))])
      = (Ok (h, h), w') /\
    last h ("", JNull) = ("You: Hello", JStr "Hi there") /\
    In ("u1", mkMsg "user" (JStr "Hello") 1000) (chats w') /\
    "You: Hello" <> "Hello".
Proof.
  apply (chat_prompt_label_differs "Hello" [] alice
           (world_with true [] [HResp 200 (Some (completion_body "Hi there"))])
           "u1" 200 (completion_body "Hi there") (JStr "Hi there") []);
    reflexivity.
Defined.

(** ** A failed completion call *)

Ltac error_entry e :=
  exists e; eexists; cbv zeta; repeat split; reflexivity.

(** The next [requests.post] fails in a way [mistral_chat] reaches its
    [except] before touching the transcript: no answer, a transport error, a
    4xx/5xx status, a non-JSON body or a body without
    choices[0].message.content. *)
Definition completion_fails (w : World) : Prop :=
  match http w with
  | [] => True
  | HConnErr :: _ => True
  | HResp st b :: _ =>
      error_status st = true \/ b = None \/
      (exists j e, b = Some j /\ reply_of j = Raise e)
  end.

(** C5 (as stated, refuted): a 302 answer is not a 2xx one, yet with a
    well-formed body [raise_for_status] lets it through: the transcript gains
    the (prompt, reply) pair, not an error entry, and two messages are
    persisted. *)
Lemma chat_302_not_error :
  let w := world_with true [] [HResp 302 (Some (completion_body "Hi there"))] in
  ~ (200 <= 302 < 300) /\
  fst (mistral_chat "Hello" [] alice w)
    = Ok ([("You: Hello", JStr "Hi there")], [("You: Hello", JStr "Hi there")]) /\
  length (chats (snd (mistral_chat "Hello" [] alice w))) = 2%nat.
Proof. split; [lia | split; reflexivity]. Qed.

(** C5 (amended): for a logged-in session, when the completion call fails
    (transport error, 4xx/5xx status, malformed body), the transcript gains
    exactly one "System" error entry and is returned; the only outside call
    is the completion request (no store RPC), the store is unchanged, and the
    session, which [mistral_chat] does not modify, stays logged in.  An
    answer with any other status (1xx, 2xx, 3xx, ...) is handled exactly as
    the same answer with status 200. *)
Theorem chat_completion_failure (message : string) (history : list Entry)
  (s : Session) (w : World) :
  logged_in s = true ->
  (completion_fails w ->
   exists e w',
     let h := app history [("System", JStr ("❌ Chat Error: " ++ exn_str e))] in
     mistral_chat message history s w = (Ok (h, h), w') /\
     trace w' = app (trace w) [EvPost MISTRAL_CHAT (completion_request message)] /\
     chats w' = chats w /\ users w' = users w /\
     logged_in s = true) /\
  (forall st b rest,
     http w = HResp st b :: rest -> error_status st = false ->
     mistral_chat message history s w
       = mistral_chat message history s (with_http w (HResp 200 b :: rest))).
Proof.
  intros Hl. split.
  - intros Hf.
    unfold mistral_chat. rewrite Hl. simpl.
    destruct w as [us cs sc df ck ht tr]; unfold completion_fails in Hf; simpl in Hf.
    unfold run, mistral_chat_m, try_except, bind, requests_post, raise_for_status,
      res_json, getitem, lift, modify_local, get_local, ret, raise; simpl.
    destruct ht as [|[|st b] rest]; simpl.
    + error_entry ConnectionError.
    + error_entry ConnectionError.
    + unfold error_status in Hf.
      destruct ((400 <=? st) && (st <? 600)) eqn:Est; simpl.
      * error_entry (HTTPError st).
      * destruct Hf as [Hf | [Hb | [j [e [Hb Hr]]]]]; [discriminate | subst b; simpl | subst b].
        -- error_entry JSONDecodeError.
        -- unfold reply_of in Hr.
           destruct (py_getitem j (KStr "choices")) as [c|e1] eqn:E1; simpl.
           2: error_entry e1.
           destruct (py_getitem c (KInt 0)) as [c0|e2] eqn:E2; simpl.
           2: error_entry e2.
           destruct (py_getitem c0 (KStr "message")) as [m|e3] eqn:E3; simpl.
           2: error_entry e3.
           rewrite Hr. simpl. error_entry e.
  - intros st b rest Hh Hst.
    unfold mistral_chat. rewrite Hl. simpl.
    destruct w as [us cs sc df ck ht tr]; simpl in Hh; subst ht.
    unfold error_status in Hst.
    unfold run, mistral_chat_m, try_except, bind, requests_post, raise_for_status; cbn.
    rewrite Hst. reflexivity.
Qed.

Lemma chat_completion_failure_witness :
  logged_in alice = true /\
  completion_fails (world_with true [] [HResp 503 None]) /\
  exists e w',
    let h := app [] [("System", JStr ("❌ Chat Error: " ++ exn_str e))] in
    mistral_chat "Hello" [] alice (world_with true [] [HResp 503 None]) = (Ok (h, h), w') /\
    trace w' = app [] [EvPost MISTRAL_CHAT (completion_request "Hello")] /\
    chats w' = [] /\ users w' = [] /\ logged_in alice = true.
Proof.
  split; [reflexivity | split; [left; reflexivity|]].
  apply (proj1 (chat_completion_failure "Hello" [] alice
                  (world_with true [] [HResp 503 None]) eq_refl)).
  left; reflexivity.
Defined.

(** ** Successful login *)

(** C6: when [login] reports success, the provider answered with a
    non-error status and a body; the returned session is logged in, its uid
    is the body's localId (a string [u]) and its email the body's email; the
    user record of [u] existed and now has [last_login] set to the time read
    by [utcnow()] during the call (the clock at the call), its other fields
    kept. *)
Theorem login_success_session (em pw : string) (s s' : Session) (w w' : World) :
  login em pw s w = (Ok (login_ok_msg, s'), w') ->
  exists st body rest u rec,
    http w = HResp st (Some body) :: rest /\ error_status st = false /\
    logged_in s' = true /\
    py_getitem body (KStr "localId") = Ok (uid s') /\ uid s' = JStr u /\
    py_getitem body (KStr "email") = Ok (email s') /\
    user_get u (users w) = Some rec /\
    user_get u (users w') = Some (mkUser (u_email rec) (created_at rec) (Some (clock w))).
Proof.
  intros H.
  destruct w as [us cs sc df ck ht tr].
  unfold login, run, login_m, try_except, bind, requests_post, raise_for_status,
    res_json, getitem, lift, modify_local, get_local, ret, raise, document, utcnow,
    users_update_last_login, store_rpc, store_answer, modify_world, get_world in H.
  unfold login_ok_msg in H.
  destruct ht as [|[|st b] rest]; cbn in H; [inversion H | inversion H |].
  destruct ((400 <=? st) && (st <? 600)) eqn:Est; cbn in H; [inversion H |].
  destruct b as [body|]; cbn in H; [|inversion H].
  destruct (py_getitem body (KStr "localId")) as [lid|] eqn:E1; cbn in H; [|inversion H].
  destruct (py_getitem body (KStr "email")) as [e|] eqn:E2; cbn in H; [|inversion H].
  destruct s as [li0 u0 e0]; cbn in H.
  destruct lid as [| | | u | |]; cbn in H; try (inversion H; fail).
  - destruct sc as [|[|] sc]; [destruct df|..]; cbn in H; try (inversion H; fail);
      rewrite user_get_fresh in H; inversion H.
  - destruct sc as [|[|] sc]; [destruct df|..]; cbn in H; try (inversion H; fail);
      destruct (user_get u us) as [rec|] eqn:E3; cbn in H; try (inversion H; fail);
      inversion H; subst; clear H;
      exists st, body, rest, u, rec; cbn; repeat split; auto; apply user_get_put_eq.
Qed.

Lemma login_success_session_witness :
  exists st body rest u rec,
    http (world_with true [("u1", mkUser (JStr "a@x.com") 7 None)]
            [HResp 200 (Some provider_ok_body)])
      = HResp st (Some body) :: rest /\ error_status st = false /\
    logged_in alice = true /\
    py_getitem body (KStr "localId") = Ok (uid alice) /\ uid alice = JStr u /\
    py_getitem body (KStr "email") = Ok (email alice) /\
    user_get u [("u1", mkUser (JStr "a@x.com") 7 None)] = Some rec /\
    user_get u (users (snd (login "a@x.com" "pw123456" session0
                              (world_with true [("u1", mkUser (JStr "a@x.com") 7 None)]
                                 [HResp 200 (Some provider_ok_body)]))))
      = Some (mkUser (u_email rec) (created_at rec) (Some 1000)).
Proof.
  apply (login_success_session "a@x.com" "pw123456" session0 alice
           (world_with true [("u1", mkUser (JStr "a@x.com") 7 None)]
              [HResp 200 (Some provider_ok_body)])).
  reflexivity.
Defined.

(** ** Signup *)

(** The identity provider accepted the request: its answer has a status
    [raise_for_status] lets through and a JSON body whose localId is
    [lid]. *)
Definition provider_accepts (w : World) (lid : Json) : Prop :=
  exists st body rest,
    http w = HResp st (Some body) :: rest /\ error_status st = false /\
    py_getitem body (KStr "localId") = Ok lid.

Ltac refute_accept :=
  let Hup := fresh "Hup" in let Hc := fresh "Hc" in
  let Hh := fresh "Hh" in let Hs := fresh "Hs" in let Hl := fresh "Hl" in
  intros [Hup Hc];
  destruct Hc as [[? [? [? [Hh [Hs Hl]]]]] | [? [? [? [? [Hh [Hs Hl]]]]]]];
  cbn in *; try discriminate; inversion Hh; subst; unfold error_status in *; congruence.

Ltac signup_error :=
  do 2 eexists; split; [reflexivity|];
  right; split; [reflexivity|]; split; [reflexivity | refute_accept].

(** C7 (amended): [signup] never raises.  It reports success exactly when
    the provider accepted the request with a string (or null) localId and
    the store accepts the write.  For a string uid [u] the users collection
    then holds, under [u] and replacing nothing else, the record (email,
    created_at = the time read by utcnow(), last_login = None); for a null
    localId the same record is created under a fresh random id, which named
    no user before.  Otherwise (no answer, transport error, 4xx/5xx status,
    non-JSON body, no localId, a localId of another type, the write refused)
    it returns the error string and the users collection is unchanged. *)
Theorem signup_outcomes (em pw : string) (w : World) :
  exists msg w',
    signup em pw w = (Ok msg, w') /\
    ((msg = "🎉 Signup successful! Please login." /\ store_answer_at w 0 = true /\
      ((exists u, provider_accepts w (JStr u) /\
          users w' = user_put u (mkUser (JStr em) (clock w) None) (users w) /\
          user_get u (users w') = Some (mkUser (JStr em) (clock w) None)) \/
       (provider_accepts w JNull /\
          users w' = user_put (fresh_id w) (mkUser (JStr em) (clock w) None) (users w) /\
          user_get (fresh_id w) (users w) = None /\
          user_get (fresh_id w) (users w') = Some (mkUser (JStr em) (clock w) None)))) \/
     (msg = "❌ Signup Error: Could not create account." /\ users w' = users w /\
      ~ (store_answer_at w 0 = true /\
         (provider_accepts w JNull \/ exists u, provider_accepts w (JStr u))))).
Proof.
  destruct w as [us cs sc df ck ht tr].
  unfold signup, run, signup_m, try_except, bind, requests_post, raise_for_status,
    res_json, getitem, lift, ret, raise, document, utcnow, users_set, store_rpc,
    store_answer, modify_world, get_world.
  destruct ht as [|[|st b] rest]; cbn; [signup_error | signup_error |].
  destruct ((400 <=? st) && (st <? 600)) eqn:Est; cbn; [signup_error |].
  destruct b as [body|]; cbn; [| signup_error].
  destruct (py_getitem body (KStr "localId")) as [lid|e] eqn:E1; cbn; [| signup_error].
  destruct lid as [| | | u | |]; cbn; try signup_error;
    destruct sc as [|[|] sc]; [destruct df | | | destruct df | |]; cbn; try signup_error.
  all: do 2 eexists; split; [reflexivity|]; left; split; [reflexivity|];
    split; [reflexivity|].
  all: first
    [ right; split; [exists st, body, rest; auto|];
      split; [reflexivity|]; split; [apply user_get_fresh | apply user_get_put_eq]
    | left; exists u; split; [exists st, body, rest; auto|]; split; [reflexivity|];
      apply user_get_put_eq ].
Qed.

(** ** Chat history *)

Lemma sorted_weaken {A} (R R' : A -> A -> Prop) (l : list A) :
  (forall a b, R a b -> R' a b) -> Sorted R l -> Sorted R' l.
Proof.
  intros HR HS. induction HS as [|a l HS IH Hd]; constructor; [exact IH|].
  destruct Hd; constructor; auto.
Qed.

(** What [.order_by("time")] hands to the rendering loop is sorted by time
    and holds exactly the stored messages. *)
Lemma ordered_messages (k : string) (cs : list (string * ChatMsg)) :
  Sorted (fun a b => msg_time a <= msg_time b) (MsgSort.sort (msgs_of k cs)) /\
  Permutation (msgs_of k cs) (MsgSort.sort (msgs_of k cs)).
Proof.
  split.
  - apply (sorted_weaken (fun a b => is_true (MsgTimeOrder.leb a b))).
    + intros a b H. unfold is_true, MsgTimeOrder.leb in H. now apply Z.leb_le.
    + apply MsgSort.Sorted_sort.
  - apply MsgSort.Permuted_sort.
Qed.

Lemma ordered_messages_of (l : list ChatMsg) :
  Sorted (fun a b => msg_time a <= msg_time b) (MsgSort.sort l) /\
  Permutation l (MsgSort.sort l).
Proof.
  split.
  - apply (sorted_weaken (fun a b => is_true (MsgTimeOrder.leb a b))).
    + intros a b H. unfold is_true, MsgTimeOrder.leb in H. now apply Z.leb_le.
    + apply MsgSort.Sorted_sort.
  - apply MsgSort.Permuted_sort.
Qed.

(** Whether [document(u)] accepts [u] as an id: a string or [None]. *)
Definition is_doc_id (u : Json) : bool :=
  match u with JStr _ | JNull => true | _ => false end.

(** C9: for a logged-in session, a second [load_history] right after the
    first (no write in between) gives the same result, provided the store
    answers the second query as it answered the first; the call writes
    nothing to the store; and a rendered history is the header followed by
    the stored messages of the session's uid (none for a [None] uid, whose
    query goes to a fresh random document), one line each, in non-decreasing
    order of their timestamps.  A call that fails does so because the store
    refused the query ([StoreUnavailable]) or because the uid is neither a
    string nor [None] ([TypeError]). *)
Theorem load_history_idempotent_ordered (strftime : time -> string) (s : Session)
  (w : World) :
  logged_in s = true ->
  let '(r1, w1) := load_history strftime s w in
  (store_answer_at w 1 = store_answer_at w 0 -> fst (load_history strftime s w1) = r1) /\
  chats w1 = chats w /\ users w1 = users w /\
  match r1 with
  | Ok out =>
      exists docs,
        Sorted (fun a b => msg_time a <= msg_time b) docs /\
        Permutation (stored_msgs (uid s) w) docs /\
        out = history_header ++ String.concat "" (map (render_msg strftime) docs)
  | Raise e =>
      (e = StoreUnavailable /\ store_answer_at w 0 = false) \/
      (exists msg, e = TypeError msg /\ is_doc_id (uid s) = false)
  end.
Proof.
  intros Hl.
  destruct w as [us cs sc df ck ht tr].
  unfold load_history, run, load_history_m. rewrite Hl.
  remember history_header as hh eqn:Ehh. cbn.
  unfold bind, document, messages_ordered, store_rpc, store_answer, modify_world,
    get_world, ret, raise, store_answer_at.
  destruct (uid s) as [| | | k | |] eqn:Hu; cbn;
    try (split; [reflexivity | split; [reflexivity | split; [reflexivity|]]];
         right; eexists; split; reflexivity).
  all: destruct sc as [|[|] [|[|] sc]]; [destruct df | ..]; cbn;
    rewrite ?msgs_of_fresh; cbn.
  all: split; [intros E; try discriminate E; try subst; cbn; rewrite ?msgs_of_fresh;
                reflexivity
              | split; [reflexivity | split; [reflexivity|]]].
  all: try (left; split; reflexivity).
  all: try (exists []; split; [constructor | split; [constructor | now rewrite str_app_nil_r]]).
  all: rewrite fold_render_concat; exists (MsgSort.sort (msgs_of k cs));
    destruct (ordered_messages k cs) as [HS HP]; auto.
Qed.

Lemma load_history_idempotent_ordered_witness :
  let w := mkWorld [] [("u1", mkMsg "bot" (JStr "Hi there") 1001);
                       ("u1", mkMsg "user" (JStr "Hello") 1000)]
             [] true 1002 [] [] in
  logged_in alice = true /\
  let '(r1, w1) := load_history no_strftime alice w in
  (store_answer_at w 1 = store_answer_at w 0 -> fst (load_history no_strftime alice w1) = r1) /\
  chats w1 = chats w /\ users w1 = users w /\
  match r1 with
  | Ok out =>
      exists docs,
        Sorted (fun a b => msg_time a <= msg_time b) docs /\
        Permutation (stored_msgs (uid alice) w) docs /\
        out = history_header ++ String.concat "" (map (render_msg no_strftime) docs)
  | Raise e =>
      (e = StoreUnavailable /\ store_answer_at w 0 = false) \/
      (exists msg, e = TypeError msg /\ is_doc_id (uid alice) = false)
  end.
Proof.
  split; [reflexivity|].
  apply (load_history_idempotent_ordered no_strftime alice
           (mkWorld [] [("u1", mkMsg "bot" (JStr "Hi there") 1001);
                        ("u1", mkMsg "user" (JStr "Hello") 1000)] [] true 1002 [] [])).
  reflexivity.
Defined.

(** C7 (as stated, refuted): a 302 answer is not a 2xx one, yet with a body
    carrying a localId [signup] reports success and creates the user
    record. *)
Lemma signup_302_succeeds :
  let w := world_with true [] [HResp 302 (Some provider_ok_body)] in
  ~ (200 <= 302 < 300) /\
  fst (signup "a@x.com" "pw123456" w) = Ok "🎉 Signup successful! Please login." /\
  users (snd (signup "a@x.com" "pw123456" w)) = [("u1", mkUser (JStr "a@x.com") 1000 None)].
Proof. split; [lia | split; reflexivity]. Qed.

(** * Further properties of main.py *)

(** ** A chat turn, whatever the outside answers *)

Ltac chat_cases Hl w :=
  unfold mistral_chat; rewrite Hl; simpl;
  unfold run, mistral_chat_m, try_except, bind, requests_post, raise_for_status,
    res_json, getitem, lift, modify_local, get_local, ret, raise, save_message,
    document, utcnow, messages_add, store_rpc, store_answer, modify_world, get_world;
  (let us := fresh "us" in let cs := fresh "cs" in let sc := fresh "sc" in
      let df := fresh "df" in let ck := fresh "ck" in let ht := fresh "ht" in
      let tr := fresh "tr" in
      destruct w as [us cs sc df ck ht tr]; cbn;
      let st := fresh "st" in let b := fresh "b" in let rest := fresh "rest" in
      destruct ht as [|[|st b] rest]; cbn;
      [ | | destruct ((400 <=? st) && (st <? 600)); cbn;
            [ | destruct b as [body|]; cbn;
                [ destruct (py_getitem body (KStr "choices")) as [c|]; cbn;
                  [ destruct (py_getitem c (KInt 0)) as [c0|]; cbn;
                    [ destruct (py_getitem c0 (KStr "message")) as [mm|]; cbn;
                      [ destruct (py_getitem mm (KStr "content")) as [r|]; cbn;
                        [ destruct (uid _) as [| | | k | |]; cbn;
                          destruct df; destruct sc as [|[|] [|[|] sc]]; cbn | ] | ] | ] | ] | ] ] ]).



(** For a logged-in session, what a turn does to the outside does not depend
    on the transcript: with any two histories the resulting world is the
    same.  The one HTTP request is the single-turn completion request for
    [message] alone, and every later outside call is a message write. *)
Theorem chat_effects_ignore_history (message : string) (h1 h2 : list Entry)
  (s : Session) (w : World) :
  logged_in s = true ->
  snd (mistral_chat message h1 s w) = snd (mistral_chat message h2 s w) /\
  exists evs,
    trace (snd (mistral_chat message h1 s w))
      = app (trace w) (EvPost MISTRAL_CHAT (completion_request message) :: evs) /\
    Forall (fun ev => exists d, ev = EvAdd d) evs.
Proof.
  intros Hl. chat_cases Hl w.
  all: split; [reflexivity|].
  all: eexists; split; [rewrite <- ?app_assoc; reflexivity | repeat constructor; eauto].
Qed.

Lemma chat_effects_ignore_history_witness :
  snd (mistral_chat "Hello" [] alice
         (world_with true [] [HResp 200 (Some (completion_body "Hi there"))]))
    = snd (mistral_chat "Hello" [("You: hi", JStr "hey")] alice
             (world_with true [] [HResp 200 (Some (completion_body "Hi there"))])) /\
  exists evs,
    trace (snd (mistral_chat "Hello" [] alice
                  (world_with true [] [HResp 200 (Some (completion_body "Hi there"))])))
      = app [] (EvPost MISTRAL_CHAT (completion_request "Hello") :: evs) /\
    Forall (fun ev => exists d, ev = EvAdd d) evs.
Proof.
  apply (chat_effects_ignore_history "Hello" [] [("You: hi", JStr "hey")] alice
           (world_with true [] [HResp 200 (Some (completion_body "Hi there"))])).
  reflexivity.
Defined.

(** ** The history state after a logout *)

Lemma completion_call_store (message : string) (w : World) :
  let '(_, w', _) := run (completion_call message) w tt in
  chats w' = chats w /\ users w' = users w.
Proof.
  destruct w as [us cs sc df ck ht tr].
  unfold run, completion_call, bind, requests_post, raise_for_status, res_json,
    getitem, lift, ret, raise.
  destruct ht as [|[|st b] rest]; cbn; auto.
  destruct ((400 <=? st) && (st <? 600)); cbn; auto.
  destruct b as [body|]; cbn; auto.
  destruct (py_getitem body (KStr "choices")) as [c|]; cbn; auto.
  destruct (py_getitem c (KInt 0)) as [c0|]; cbn; auto.
  destruct (py_getitem c0 (KStr "message")) as [mm|]; cbn; auto.
  destruct (py_getitem mm (KStr "content")); cbn; auto.
Qed.

Lemma send_str_history_step (strftime : time -> string) (a : App) (m str : string) :
  a_chat_history a = HStr str -> logged_in (a_session a) = true ->
  let a' := app_step strftime a (ClickSend m) in
  a_chat_history a' = HStr str /\ a_chatbot a' = a_chatbot a /\
  a_session a' = a_session a /\
  chats (a_world a') = chats (a_world a) /\ users (a_world a') = users (a_world a).
Proof.
  intros Hh Hl.
  destruct a as [se ch cb sm lm om hd w]; simpl in *; subst ch.
  unfold mistral_chat_str. rewrite Hl. simpl.
  pose proof (completion_call_store m w) as Hc.
  destruct (run (completion_call m) w tt) as [[r w'] l'].
  destruct Hc as [Hc Hu]. simpl. auto.
Qed.

(** Once the chat-history state holds a string (what the Logout button
    stores there), a Send by a logged-in user changes no component: the
    history state and the chatbot keep their values, the session is kept,
    and no message is written, whatever the completion answers (the call
    raises on [history.append]). *)
Theorem send_with_str_history_is_lost (strftime : time -> string) (a : App)
  (m str : string) :
  a_chat_history a = HStr str -> logged_in (a_session a) = true ->
  let a' := app_step strftime a (ClickSend m) in
  a_chat_history a' = HStr str /\ a_chatbot a' = a_chatbot a /\
  a_session a' = a_session a /\
  chats (a_world a') = chats (a_world a) /\ users (a_world a') = users (a_world a).
Proof. apply send_str_history_step. Qed.

Lemma send_with_str_history_is_lost_witness :
  let a := mkApp alice (HStr "") (HList []) "" "" "" ""
             (world_with true [] [HResp 200 (Some (completion_body "Hi there"))]) in
  a_chat_history a = HStr "" /\ logged_in (a_session a) = true /\
  let a' := app_step no_strftime a (ClickSend "Hello") in
  a_chat_history a' = HStr "" /\ a_chatbot a' = a_chatbot a /\
  a_session a' = a_session a /\
  chats (a_world a') = chats (a_world a) /\ users (a_world a') = users (a_world a).
Proof.
  split; [reflexivity | split; [reflexivity|]].
  apply (send_with_str_history_is_lost no_strftime
           (mkApp alice (HStr "") (HList []) "" "" "" ""
              (world_with true [] [HResp 200 (Some (completion_body "Hi there"))]))
           "Hello" ""); reflexivity.
Defined.

Lemma logout_login_history (strftime : time -> string) (a : App) (e p : string) :
  let a2 := app_run strftime a [ClickLogout; ClickLogin e p] in
  a_chat_history a2 = HStr "" /\ a_chatbot a2 = HList [].
Proof.
  destruct a as [se ch cb sm lm om hd w]. unfold app_run. simpl.
  destruct (login _ _ _ _) as [[[m s']|ex] w']; simpl; split; reflexivity.
Qed.

(** Logout, then Login, then Send: when the login leaves the session logged
    in, the first message sent afterwards is neither shown nor stored: the
    history state stays [""], the chatbot stays empty and the chat log is
    unchanged. *)
Theorem relogin_first_send_lost (strftime : time -> string) (a : App)
  (e p m : string) :
  let a2 := app_run strftime a [ClickLogout; ClickLogin e p] in
  logged_in (a_session a2) = true ->
  let a3 := app_step strftime a2 (ClickSend m) in
  a_chat_history a3 = HStr "" /\ a_chatbot a3 = HList [] /\
  chats (a_world a3) = chats (a_world a2).
Proof.
  intros a2 Hl a3.
  destruct (logout_login_history strftime a e p) as [Hh Hc].
  destruct (send_str_history_step strftime a2 m "" Hh Hl) as [H1 [H2 [_ [H4 _]]]].
  subst a3. split; [exact H1 | split; [rewrite H2; exact Hc | exact H4]].
Qed.

Definition relogin_world : World :=
  mkWorld [("u1", mkUser (JStr "a@x.com") 7 None)] [] [] true 1000
    [HResp 200 (Some provider_ok_body); HResp 200 (Some (completion_body "Hi there"))] [].

Lemma relogin_first_send_lost_witness :
  let a := mkApp alice (HList [("You: hi", JStr "hey")]) (HList []) "" "" "" ""
             relogin_world in
  let a2 := app_run no_strftime a [ClickLogout; ClickLogin "a@x.com" "pw123456"] in
  logged_in (a_session a2) = true /\
  let a3 := app_step no_strftime a2 (ClickSend "Hello") in
  a_chat_history a3 = HStr "" /\ a_chatbot a3 = HList [] /\
  chats (a_world a3) = chats (a_world a2).
Proof.
  split; [reflexivity|].
  apply (relogin_first_send_lost no_strftime
           (mkApp alice (HList [("You: hi", JStr "hey")]) (HList []) "" "" "" ""
              relogin_world) "a@x.com" "pw123456" "Hello").
  reflexivity.
Defined.

(** A Send while logged out overwrites the chat-history state with the one
    system entry, shows the previous history state in the chatbot (so the
    login prompt is not displayed), and makes no outside call. *)
Theorem logged_out_send_replaces_history (strftime : time -> string) (a : App)
  (m : string) :
  logged_in (a_session a) = false ->
  let a' := app_step strftime a (ClickSend m) in
  a_chat_history a' = HList [("System", JStr chat_login_msg)] /\
  a_chatbot a' = a_chat_history a /\
  a_session a' = a_session a /\ a_world a' = a_world a.
Proof.
  intros Hl. destruct a as [se ch cb sm lm om hd w]; simpl in *.
  destruct ch as [h|h]; simpl.
  - unfold mistral_chat. rewrite Hl. simpl. auto.
  - unfold mistral_chat_str. rewrite Hl. simpl. auto.
Qed.

Lemma logged_out_send_replaces_history_witness :
  let a := mkApp session0 (HList [("You: hi", JStr "hey")]) (HList []) "" "" "" ""
             (world_with true [] []) in
  logged_in (a_session a) = false /\
  let a' := app_step no_strftime a (ClickSend "Hello") in
  a_chat_history a' = HList [("System", JStr chat_login_msg)] /\
  a_chatbot a' = a_chat_history a /\
  a_session a' = a_session a /\ a_world a' = a_world a.
Proof.
  split; [reflexivity|].
  apply (logged_out_send_replaces_history no_strftime
           (mkApp session0 (HList [("You: hi", JStr "hey")]) (HList []) "" "" "" ""
              (world_with true [] [])) "Hello").
  reflexivity.
Defined.

(** ** Login, whatever the outside answers *)

Ltac login_err :=
  do 3 eexists; split; [reflexivity | split; [reflexivity | left; split; reflexivity]].

(** [login] never raises and never touches the chat log.  Either it reports
    "Invalid email or password." and the user records are unchanged, or it
    reports success and the only change to the user records is the
    [last_login] field of the record of the returned uid, set to the time
    read during the call. *)
Theorem login_outcomes (em pw : string) (s : Session) (w : World) :
  exists m s' w',
    login em pw s w = (Ok (m, s'), w') /\ chats w' = chats w /\
    ((m = login_err_msg /\ users w' = users w) \/
     (m = login_ok_msg /\
      exists u rec, uid s' = JStr u /\ user_get u (users w) = Some rec /\
        users w' = user_put u (mkUser (u_email rec) (created_at rec) (Some (clock w)))
                     (users w))).
Proof.
  destruct w as [us cs sc df ck ht tr].
  unfold login, run, login_m, try_except, bind, requests_post, raise_for_status,
    res_json, getitem, lift, modify_local, get_local, ret, raise, document, utcnow,
    users_update_last_login, store_rpc, store_answer, modify_world, get_world.
  destruct s as [li0 u0 e0].
  destruct ht as [|[|st b] rest]; cbn; [login_err..|].
  destruct ((400 <=? st) && (st <? 600)); cbn; [login_err|].
  destruct b as [body|]; cbn; [|login_err].
  destruct (py_getitem body (KStr "localId")) as [lid|]; cbn; [|login_err].
  destruct (py_getitem body (KStr "email")) as [em'|]; cbn; [|login_err].
  destruct lid as [| | | u | |]; cbn; try login_err;
    destruct df; destruct sc as [|[|] sc]; cbn; try login_err.
  all: try (rewrite user_get_fresh; cbn; login_err).
  all: destruct (user_get u us) as [rec|] eqn:E; cbn; [|login_err].
  all: do 3 eexists; split; [reflexivity | split; [reflexivity|]].
  all: right; split; [reflexivity|]; exists u, rec; auto.
Qed.

(** When the provider gives no usable answer (no answer, a transport error,
    a 4xx/5xx status as for a wrong password, or a non-JSON body), [login]
    returns "Invalid email or password." with the session it was given,
    unchanged, and changes no stored record. *)
Theorem login_rejected_keeps_session (em pw : string) (s : Session) (w : World) :
  match http w with
  | [] | HConnErr :: _ => True
  | HResp st b :: _ => error_status st = true \/ b = None
  end ->
  exists w',
    login em pw s w = (Ok ("❌ Invalid email or password.", s), w') /\
    users w' = users w /\ chats w' = chats w.
Proof.
  intros H.
  destruct w as [us cs sc df ck ht tr]; simpl in H.
  unfold login, run, login_m, try_except, bind, requests_post, raise_for_status,
    res_json, getitem, lift, modify_local, get_local, ret, raise.
  destruct ht as [|[|st b] rest]; cbn; [eexists; auto..|].
  unfold error_status in H.
  destruct ((400 <=? st) && (st <? 600)); cbn; [eexists; auto|].
  destruct H as [H|H]; [discriminate | subst b; cbn; eexists; auto].
Qed.

Lemma login_rejected_keeps_session_witness :
  (match http (world_with true [] [HResp 400 (Some (JObj [("error", JNull)]))]) with
   | [] | HConnErr :: _ => True
   | HResp st b :: _ => error_status st = true \/ b = None
   end) /\
  exists w',
    login "a@x.com" "wrong" alice
      (world_with true [] [HResp 400 (Some (JObj [("error", JNull)]))])
      = (Ok ("❌ Invalid email or password.", alice), w') /\
    users w' = [] /\ chats w' = [].
Proof.
  split; [left; reflexivity|].
  apply (login_rejected_keeps_session "a@x.com" "wrong" alice
           (world_with true [] [HResp 400 (Some (JObj [("error", JNull)]))])).
  left; reflexivity.
Defined.

(** ** Saving and reading back *)

Lemma msgs_of_snoc (k : string) (cs : list (string * ChatMsg)) (m : ChatMsg) :
  msgs_of k (app cs [(k, m)]) = app (msgs_of k cs) [m].
Proof.
  unfold msgs_of. rewrite filter_app, map_app. simpl.
  now rewrite String.eqb_refl.
Qed.

(** A write of [save_message] under a string uid [k] that the store
    accepts: the message (role, text, the clock) is appended under [k]. *)
Lemma save_message_ok (k r : string) (t : Json) (w : World) :
  store_answer_at w 0 = true ->
  exists w1,
    run (save_message (JStr k) r t) w tt = (Ok tt, w1, tt) /\
    chats w1 = app (chats w) [(k, mkMsg r t (clock w))] /\
    users w1 = users w /\
    store_answer_at w1 0 = store_answer_at w 1.
Proof.
  destruct w as [us cs sc df ck ht tr]. unfold store_answer_at; simpl.
  destruct sc as [|b sc]; simpl; intros Hb; subst;
    (eexists; split; [reflexivity | repeat split]).
Qed.

(** A [load_history] for a string uid [k] whose query the store answers. *)
Lemma load_history_ok (strftime : time -> string) (s : Session) (w : World) (k : string) :
  logged_in s = true -> uid s = JStr k -> store_answer_at w 0 = true ->
  fst (load_history strftime s w)
    = Ok (history_header
          ++ String.concat "" (map (render_msg strftime) (MsgSort.sort (msgs_of k (chats w))))).
Proof.
  intros Hl Hu.
  rewrite <- fold_render_concat.
  destruct w as [us cs sc df ck ht tr]. unfold store_answer_at; simpl.
  unfold load_history, run, load_history_m. rewrite Hl, Hu.
  destruct sc as [|b sc]; simpl; intros Hb; subst; reflexivity.
Qed.

(** A message written by [save_message] under a string uid [k] (store up)
    is read back by [load_history] for a logged-in session of [k]: the
    rendered documents are the earlier messages of [k] together with the
    new one (role, text and the time read at the write), sorted by time. *)
Theorem save_then_load (strftime : time -> string) (k r : string) (t : Json)
  (s : Session) (w : World) :
  store_up w = true -> logged_in s = true -> uid s = JStr k ->
  let '(res, w1, _) := run (save_message (JStr k) r t) w tt in
  res = Ok tt /\
  exists docs,
    fst (load_history strftime s w1)
      = Ok (history_header ++ String.concat "" (map (render_msg strftime) docs)) /\
    Permutation (app (stored_msgs (uid s) w) [mkMsg r t (clock w)]) docs /\
    Sorted (fun a b => msg_time a <= msg_time b) docs.
Proof.
  intros Hup Hl Hu.
  destruct (save_message_ok k r t w (store_up_answers w 0 Hup)) as [w1 [E [Hc [_ Ha]]]].
  rewrite E. split; [reflexivity|].
  rewrite (load_history_ok strftime s w1 k Hl Hu)
    by (rewrite Ha; apply store_up_answers; exact Hup).
  rewrite Hc, msgs_of_snoc, Hu. simpl stored_msgs.
  exists (MsgSort.sort (app (msgs_of k (chats w)) [mkMsg r t (clock w)])).
  destruct (ordered_messages_of (app (msgs_of k (chats w)) [mkMsg r t (clock w)]))
    as [HS HP].
  repeat split; auto.
Qed.

Lemma save_then_load_witness :
  store_up (world_with true [] []) = true /\ logged_in alice = true /\
  uid alice = JStr "u1" /\
  let '(res, w1, _) := run (save_message (JStr "u1") "user" (JStr "Hello"))
                          (world_with true [] []) tt in
  res = Ok tt /\
  exists docs,
    fst (load_history no_strftime alice w1)
      = Ok (history_header ++ String.concat "" (map (render_msg no_strftime) docs)) /\
    Permutation (app (stored_msgs (uid alice) (world_with true [] []))
                     [mkMsg "user" (JStr "Hello") 1000]) docs /\
    Sorted (fun a b => msg_time a <= msg_time b) docs.
Proof.
  split; [reflexivity | split; [reflexivity | split; [reflexivity|]]].
  apply (save_then_load no_strftime "u1" "user" (JStr "Hello") alice
           (world_with true [] [])); reflexivity.
Defined.

(** ** Signup followed by login *)

(** A [signup] the provider accepts with uid [u] and whose write the store
    accepts. *)
Lemma signup_ok (em pw : string) (w : World) (u : string) (st : Z) (b : Json)
  (rest : list HttpOutcome) :
  http w = HResp st (Some b) :: rest -> error_status st = false ->
  py_getitem b (KStr "localId") = Ok (JStr u) -> store_answer_at w 0 = true ->
  exists w1,
    signup em pw w = (Ok signup_ok_msg, w1) /\
    users w1 = user_put u (mkUser (JStr em) (clock w) None) (users w) /\
    http w1 = rest /\ clock w1 = clock w + 1 /\
    store_answer_at w1 0 = store_answer_at w 1.
Proof.
  intros Hh Hst L.
  destruct w as [us cs sc df ck ht tr]; unfold store_answer_at; simpl in *; subst ht.
  unfold error_status in Hst.
  unfold signup, run, signup_m, try_except, bind, requests_post, raise_for_status,
    res_json, getitem, lift, ret, raise, document, utcnow, users_set, store_rpc,
    store_answer, modify_world, get_world.
  cbn. rewrite Hst. cbn. rewrite L. cbn.
  destruct sc as [|b0 sc]; simpl; intros Hb; subst; cbn;
    (eexists; split; [reflexivity | repeat split]).
Qed.

(** A [login] the provider accepts with uid [u] and email [e'], for a user
    record the store holds and an update the store accepts. *)
Lemma login_ok_run (em pw : string) (s : Session) (w : World) (u : string) (st : Z)
  (b e' : Json) (rest : list HttpOutcome) (rec : UserRec) :
  http w = HResp st (Some b) :: rest -> error_status st = false ->
  py_getitem b (KStr "localId") = Ok (JStr u) -> py_getitem b (KStr "email") = Ok e' ->
  user_get u (users w) = Some rec -> store_answer_at w 0 = true ->
  exists w2,
    login em pw s w = (Ok (login_ok_msg, mkSession true (JStr u) e'), w2) /\
    users w2 = user_put u (mkUser (u_email rec) (created_at rec) (Some (clock w))) (users w).
Proof.
  intros Hh Hst L E Hr.
  destruct w as [us cs sc df ck ht tr]; unfold store_answer_at; simpl in *; subst ht.
  unfold error_status in Hst.
  destruct s as [li0 u0 e0].
  unfold login, run, login_m, try_except, bind, requests_post, raise_for_status,
    res_json, getitem, lift, modify_local, get_local, ret, raise, document, utcnow,
    users_update_last_login, store_rpc, store_answer, modify_world, get_world.
  cbn. rewrite Hst. cbn. rewrite L. cbn. rewrite E. cbn.
  destruct sc as [|b0 sc]; simpl; intros Hb; subst; cbn; rewrite Hr; cbn;
    (eexists; split; reflexivity).
Qed.

(** With the store up and the provider accepting both requests for the same
    string uid [u], [signup] then [login] succeed: the session is logged in
    as [u] with the email the provider returned, and the record of [u] is the
    one [signup] created, with [last_login] set by the login (the time read
    after the signup's). *)
Theorem signup_then_login (em pw : string) (s : Session) (w : World) (u : string)
  (st1 st2 : Z) (b1 b2 e' : Json) (rest : list HttpOutcome) :
  store_up w = true ->
  http w = HResp st1 (Some b1) :: HResp st2 (Some b2) :: rest ->
  error_status st1 = false -> error_status st2 = false ->
  py_getitem b1 (KStr "localId") = Ok (JStr u) ->
  py_getitem b2 (KStr "localId") = Ok (JStr u) ->
  py_getitem b2 (KStr "email") = Ok e' ->
  let '(r1, w1) := signup em pw w in
  let '(r2, w2) := login em pw s w1 in
  r1 = Ok signup_ok_msg /\
  r2 = Ok (login_ok_msg, mkSession true (JStr u) e') /\
  user_get u (users w2) = Some (mkUser (JStr em) (clock w) (Some (clock w + 1))).
Proof.
  intros Hup Hh H1 H2 L1 L2 E2.
  destruct (signup_ok em pw w u st1 b1 (HResp st2 (Some b2) :: rest) Hh H1 L1
              (store_up_answers w 0 Hup)) as [w1 [Es [Hu1 [Hh1 [Hc1 Ha1]]]]].
  rewrite Es.
  assert (Hrec : user_get u (users w1) = Some (mkUser (JStr em) (clock w) None))
    by (rewrite Hu1; apply user_get_put_eq).
  assert (Ha : store_answer_at w1 0 = true)
    by (rewrite Ha1; apply store_up_answers; exact Hup).
  destruct (login_ok_run em pw s w1 u st2 b2 e' rest _ Hh1 H2 L2 E2 Hrec Ha)
    as [w2 [El Hu2]].
  rewrite El. split; [reflexivity | split; [reflexivity|]].
  rewrite Hu2, user_get_put_eq, Hc1. reflexivity.
Qed.

Lemma signup_then_login_witness :
  let w := world_with true [] [HResp 200 (Some provider_ok_body);
                               HResp 200 (Some provider_ok_body)] in
  let '(r1, w1) := signup "a@x.com" "pw123456" w in
  let '(r2, w2) := login "a@x.com" "pw123456" session0 w1 in
  r1 = Ok signup_ok_msg /\
  r2 = Ok (login_ok_msg, mkSession true (JStr "u1") (JStr "a@x.com")) /\
  user_get "u1" (users w2) = Some (mkUser (JStr "a@x.com") 1000 (Some (1000 + 1))).
Proof.
  apply (signup_then_login "a@x.com" "pw123456" session0
           (world_with true [] [HResp 200 (Some provider_ok_body);
                                HResp 200 (Some provider_ok_body)])
           "u1" 200 200 provider_ok_body provider_ok_body (JStr "a@x.com") []);
    reflexivity.
Defined.

(** ** Logout, then Load Chat History *)

(** Whatever the app state, clicking Logout and then Load Chat History shows
    "Please login to view history." and leaves the outside world exactly as
    it was: no store read happens. *)
Theorem logout_then_history (strftime : time -> string) (a : App) :
  let a2 := app_run strftime a [ClickLogout; ClickLoadHistory] in
  a_history_display a2 = "❌ Please login to view history." /\
  a_world a2 = a_world a /\ a_session a2 = session0.
Proof.
  destruct a as [se ch cb sm lm om hd w]. repeat split; reflexivity.
Qed.
